(** * Tic-tac-toe Stylus contract: shallow embedding of src/lib.rs

    Storage words (U256) are modelled as [Z], the board
    [StorageArray<StorageU256, 9>] as a [list Z] read with default 0
    (an unset storage slot reads as 0), an [Address] as [Z] and a
    [usize] as [Z] in the range of a 32-bit wasm target.  The caller
    ([msg::sender()]) is passed explicitly.  A call that returns
    [Err(bytes)] is modelled as [Err msg] and leaves the state as it
    was; the log of the VM is a field of the state. *)

From Stdlib Require Import ZArith List String Bool Lia.
From Stdlib Require Import Strings.Byte.
Import ListNotations.
Open Scope Z_scope.

(** ** Data model *)

Definition BOARD_SIZE : nat := 9.

(** [sol!] events. *)
Inductive event :=
| GameStarted (player : Z)
| PlayerMove (position : Z)
| ContractMove (position : Z)
| GameWon (winner : Z)
| GameDrawn.

(** [#[storage] struct Contract], plus the log of emitted events. *)
Record Contract := mkContract {
  board : list Z;
  player : Z;
  current_turn : Z;
  game_status : Z;
  rng_seed : Z;
  logs : list event
}.

(** [Result<(), Vec<u8>>] of a mutating entry point. *)
Inductive result :=
| Ok (st : Contract)
| Err (msg : string).

(** Error payloads of the source (its byte strings). *)
Definition GameAlreadyActive : string := "Game already in progress".
Definition InvalidPosition : string := "Invalid position".
Definition GameNotActive : string := "Game not in progress".
Definition NotAuthorized : string := "Not your game".
Definition OutOfTurn : string := "Not your turn".
Definition CellOccupied : string := "Position already taken".

(** [Address::ZERO]. *)
Definition ADDRESS_ZERO : Z := 0.

(** ** Storage access *)

(** [self.board.get(i).unwrap()]. *)
Definition get (b : list Z) (i : nat) : Z := nth i b 0.

Fixpoint set_nth (i : nat) (v : Z) (b : list Z) : list Z :=
  match b, i with
  | [], _ => []
  | _ :: t, O => v :: t
  | x :: t, S i' => x :: set_nth i' v t
  end.

Definition set_board (st : Contract) (b : list Z) : Contract :=
  {| board := b; player := player st; current_turn := current_turn st;
     game_status := game_status st; rng_seed := rng_seed st; logs := logs st |}.
Definition set_player (st : Contract) (p : Z) : Contract :=
  {| board := board st; player := p; current_turn := current_turn st;
     game_status := game_status st; rng_seed := rng_seed st; logs := logs st |}.
Definition set_turn (st : Contract) (t : Z) : Contract :=
  {| board := board st; player := player st; current_turn := t;
     game_status := game_status st; rng_seed := rng_seed st; logs := logs st |}.
Definition set_status (st : Contract) (s : Z) : Contract :=
  {| board := board st; player := player st; current_turn := current_turn st;
     game_status := s; rng_seed := rng_seed st; logs := logs st |}.
Definition set_seed (st : Contract) (r : Z) : Contract :=
  {| board := board st; player := player st; current_turn := current_turn st;
     game_status := game_status st; rng_seed := r; logs := logs st |}.

(** [log(self.vm(), e)]. *)
Definition log (st : Contract) (e : event) : Contract :=
  {| board := board st; player := player st; current_turn := current_turn st;
     game_status := game_status st; rng_seed := rng_seed st;
     logs := logs st ++ [e] |}.

(** [self.board.get(i).unwrap()] on the stored board. *)
Definition sget (st : Contract) (i : nat) : Z := get (board st) i.

(** [self.board.setter(i).unwrap().set(v)]. *)
Definition set_cell (st : Contract) (i : nat) (v : Z) : Contract :=
  set_board st (set_nth i v (board st)).

(** ** Loop helpers *)

(** [(lo..hi).step_by(k)] over an already enumerated range. *)
Fixpoint step_by_aux (k skip : nat) (l : list nat) : list nat :=
  match l with
  | [] => []
  | x :: t =>
      match skip with
      | O => x :: step_by_aux k (Nat.pred k) t
      | S s => step_by_aux k s t
      end
  end.

Definition step_by (k : nat) (l : list nat) : list nat := step_by_aux k O l.

(** A [for] loop whose body may [return Some(..)]: the first result. *)
Fixpoint find_first {A} (f : nat -> option A) (l : list nat) : option A :=
  match l with
  | [] => None
  | x :: t => match f x with Some a => Some a | None => find_first f t end
  end.

(** [position.try_into().unwrap_or(BOARD_SIZE)] from U256 to a 32-bit usize. *)
Definition usize_bound : Z := 2 ^ 32.

Definition to_usize_or (dflt : Z) (position : Z) : Z :=
  if (0 <=? position) && (position <? usize_bound) then position else dflt.

(** ** Public entry points *)

(** [constructor], run on fresh (all-zero) storage. *)
Definition fresh_storage : Contract :=
  {| board := repeat 0 BOARD_SIZE; player := 0; current_turn := 0;
     game_status := 0; rng_seed := 0; logs := [] |}.

Definition constructor (st : Contract) : Contract :=
  set_seed (set_status st 0) 1.

Definition init_state : Contract := constructor fresh_storage.

(** [supports_interface]: the [FixedBytes<4>] argument is its byte
    slice; [try_into().unwrap()] panics ([None]) if it is not 4 bytes. *)
Definition slice_to_array4 (l : list byte) : option (byte * byte * byte * byte) :=
  match l with
  | [a; b; c; d] => Some (a, b, c, d)
  | _ => None
  end.

Definition u32_from_be_bytes (a : byte * byte * byte * byte) : Z :=
  let '(b0, b1, b2, b3) := a in
  Z.of_nat (Byte.to_nat b0) * 2 ^ 24 + Z.of_nat (Byte.to_nat b1) * 2 ^ 16
  + Z.of_nat (Byte.to_nat b2) * 2 ^ 8 + Z.of_nat (Byte.to_nat b3).

Definition FixedBytes4 := (byte * byte * byte * byte)%type.

Definition as_slice (x : FixedBytes4) : list byte :=
  let '(a, b, c, d) := x in [a; b; c; d].

Definition supports_interface (st : Contract) (interface : FixedBytes4) : option bool :=
  match slice_to_array4 (as_slice interface) with
  | None => None
  | Some interface_slice_array =>
      let id := u32_from_be_bytes interface_slice_array in
      Some (id =? 0x01ffc9a7)
  end.

(** [start_game]. *)
Definition start_game (sender : Z) (st : Contract) : result :=
  if negb (game_status st =? 0) then Err GameAlreadyActive
  else
    let st1 := fold_left (fun s i => set_cell s i 0) (seq 0 BOARD_SIZE) st in
    let st2 := set_player st1 sender in
    let st3 := set_turn st2 1 in
    let st4 := set_status st3 1 in
    Ok (log st4 (GameStarted sender)).

(** ** Win and draw detection *)

(** [would_win(&self, board: &[U256; 9])]: on a board copy. *)
Definition would_win (b : list Z) : bool :=
  existsb (fun i => negb (get b i =? 0) && (get b i =? get b (i + 1)%nat)
                    && (get b i =? get b (i + 2)%nat))
          (step_by 3 (seq 0 BOARD_SIZE))
  || existsb (fun i => negb (get b i =? 0) && (get b i =? get b (i + 3)%nat)
                       && (get b i =? get b (i + 6)%nat))
             (seq 0 3)
  || (negb (get b 0 =? 0) && (get b 0 =? get b 4) && (get b 0 =? get b 8))
  || (negb (get b 2 =? 0) && (get b 2 =? get b 4) && (get b 2 =? get b 6)).

(** [check_winner(&self)]: on the stored board. *)
Definition check_winner (st : Contract) : bool :=
  existsb (fun i => negb (sget st i =? 0) && (sget st i =? sget st (i + 1)%nat)
                    && (sget st i =? sget st (i + 2)%nat))
          (step_by 3 (seq 0 BOARD_SIZE))
  || existsb (fun i => negb (sget st i =? 0) && (sget st i =? sget st (i + 3)%nat)
                       && (sget st i =? sget st (i + 6)%nat))
             (seq 0 3)
  || (negb (sget st 0 =? 0) && (sget st 0 =? sget st 4) && (sget st 0 =? sget st 8))
  || (negb (sget st 2 =? 0) && (sget st 2 =? sget st 4) && (sget st 2 =? sget st 6)).

(** [is_board_full(&self)]: [return false] at the first empty cell. *)
Definition is_board_full (st : Contract) : bool :=
  match find_first (fun i => if get (board st) i =? 0 then Some false else None)
                   (seq 0 BOARD_SIZE) with
  | Some r => r
  | None => true
  end.

(** ** The contract's reply *)

(** [find_winning_move(&self, player)]. *)
Definition find_winning_move (st : Contract) (p : Z) : option nat :=
  find_first
    (fun pos =>
       if get (board st) pos =? 0 then
         let board_copy := map (fun i => get (board st) i) (seq 0 BOARD_SIZE) in
         let board_copy := set_nth pos p board_copy in
         if would_win board_copy then Some pos else None
       else None)
    (seq 0 BOARD_SIZE).

(** [make_contract_move_at(&mut self, position)]. *)
Definition make_contract_move_at (st : Contract) (position : nat) : Contract :=
  let st := set_cell st position 2 in
  let st := log st (ContractMove (Z.of_nat position)) in
  if check_winner st then log (set_status st 2) (GameWon ADDRESS_ZERO)
  else if is_board_full st then log (set_status st 2) GameDrawn
  else set_turn st 1.

Definition corners : list nat := [0; 2; 6; 8]%nat.

(** [make_contract_move(&mut self)]; when no rule applies it returns
    without touching the state. *)
Definition make_contract_move (st : Contract) : Contract :=
  match find_winning_move st 2 with
  | Some pos => make_contract_move_at st pos
  | None =>
    match find_winning_move st 1 with
    | Some pos => make_contract_move_at st pos
    | None =>
      if get (board st) 4 =? 0 then make_contract_move_at st 4
      else
        match find_first (fun c => if get (board st) c =? 0 then Some c else None)
                         corners with
        | Some c => make_contract_move_at st c
        | None =>
          match find_first (fun i => if get (board st) i =? 0 then Some i else None)
                           (seq 0 BOARD_SIZE) with
          | Some i => make_contract_move_at st i
          | None => st
          end
        end
    end
  end.

(** [make_move(&mut self, position: U256)]. *)
Definition make_move (sender : Z) (position : Z) (st : Contract) : result :=
  let pos := to_usize_or (Z.of_nat BOARD_SIZE) position in
  if Z.of_nat BOARD_SIZE <=? pos then Err InvalidPosition
  else if negb (game_status st =? 1) then Err GameNotActive
  else if negb (sender =? player st) then Err NotAuthorized
  else if negb (current_turn st =? 1) then Err OutOfTurn
  else if negb (get (board st) (Z.to_nat pos) =? 0) then Err CellOccupied
  else
    let st := set_cell st (Z.to_nat pos) 1 in
    let st := log st (PlayerMove position) in
    if check_winner st then Ok (log (set_status st 2) (GameWon sender))
    else if is_board_full st then Ok (log (set_status st 2) GameDrawn)
    else
      let st := set_turn st 2 in
      Ok (make_contract_move st).

(** [get_game_state(&self)]. *)
Definition get_game_state (st : Contract) : list Z * Z * Z * Z :=
  (map (fun i => get (board st) i) (seq 0 BOARD_SIZE),
   player st, current_turn st, game_status st).

(** ** The contract as a state machine *)

(** A call to the contract by [sender]. *)
Inductive call :=
| CallStartGame (sender : Z)
| CallMakeMove (sender : Z) (position : Z)
| CallGetGameState (sender : Z)
| CallSupportsInterface (sender : Z) (interface : FixedBytes4).

(** The storage after a call; a reverted call leaves it as it was. *)
Definition exec (c : call) (st : Contract) : Contract :=
  match c with
  | CallStartGame s => match start_game s st with Ok st' => st' | Err _ => st end
  | CallMakeMove s p => match make_move s p st with Ok st' => st' | Err _ => st end
  | CallGetGameState _ => st
  | CallSupportsInterface _ _ => st
  end.

Inductive reachable : Contract -> Prop :=
| reach_init : reachable init_state
| reach_step c st : reachable st -> reachable (exec c st).

Fixpoint run (cs : list call) (st : Contract) : Contract :=
  match cs with
  | [] => st
  | c :: t => run t (exec c st)
  end.

(** The 8 lines of the board, as the spec lists them. *)
Definition lines : list (nat * nat * nat) :=
  [(0, 1, 2); (3, 4, 5); (6, 7, 8); (0, 3, 6); (1, 4, 7); (2, 5, 8);
   (0, 4, 8); (2, 4, 6)]%nat.

(** A board has a winner: some line holds three equal non-empty cells. *)
Definition has_winning_line (b : list Z) : Prop :=
  exists x y z, In (x, y, z) lines /\
    get b x <> 0 /\ get b x = get b y /\ get b x = get b z.

(** A board is full: no cell of 0..8 is empty. *)
Definition board_full (b : list Z) : Prop := forall i, (i < 9)%nat -> get b i <> 0.

(** Number of non-empty cells among 0..8. *)
Definition count_marked (b : list Z) : nat :=
  List.length (filter (fun i => negb (get b i =? 0)) (seq 0 BOARD_SIZE)).

(** The opponent's priority rules, as the spec words them. *)
Definition wins_by_placing (b : list Z) (m : Z) (i : nat) : Prop :=
  get b i = 0 /\ has_winning_line (set_nth i m b).

Definition least_cell (P : nat -> Prop) (c : nat) : Prop :=
  (c < 9)%nat /\ P c /\ forall j, (j < c)%nat -> ~ P j.

Definition no_cell (P : nat -> Prop) : Prop := forall i, (i < 9)%nat -> ~ P i.

(** [c] is the first empty cell of the corner order [0, 2, 6, 8]. *)
Definition first_empty_corner (b : list Z) (c : nat) : Prop :=
  exists k, nth_error corners k = Some c /\ get b c = 0 /\
    forall k' c', (k' < k)%nat -> nth_error corners k' = Some c' -> get b c' <> 0.

Definition priority_choice (b : list Z) (c : nat) : Prop :=
  least_cell (wins_by_placing b 2) c
  \/ (no_cell (wins_by_placing b 2) /\ least_cell (wins_by_placing b 1) c)
  \/ (no_cell (wins_by_placing b 2) /\ no_cell (wins_by_placing b 1)
      /\ get b 4 = 0 /\ c = 4%nat)
  \/ (no_cell (wins_by_placing b 2) /\ no_cell (wins_by_placing b 1)
      /\ get b 4 <> 0 /\ first_empty_corner b c)
  \/ (no_cell (wins_by_placing b 2) /\ no_cell (wins_by_placing b 1)
      /\ get b 4 <> 0 /\ (forall c', In c' corners -> get b c' <> 0)
      /\ least_cell (fun i => get b i = 0) c).

(** Number of cells among 0..8 holding [v]. *)
Definition count_of (v : Z) (b : list Z) : nat :=
  List.length (filter (fun i => get b i =? v) (seq 0 BOARD_SIZE)).

(** Nine cells, each 0 (empty), 1 (player) or 2 (contract). *)
Definition cells_ok (b : list Z) : Prop :=
  List.length b = 9%nat /\
  forall i, (i < 9)%nat -> get b i = 0 \/ get b i = 1 \/ get b i = 2.

(** What holds of every state the contract can reach. *)
Definition game_inv (st : Contract) : Prop :=
  cells_ok (board st) /\ rng_seed st = 1 /\
  (st = init_state
   \/ (game_status st = 1 /\ current_turn st = 1 /\
       ~ has_winning_line (board st) /\ ~ board_full (board st) /\
       count_of 1 (board st) = count_of 2 (board st))
   \/ (game_status st = 2 /\
       (count_of 1 (board st) = count_of 2 (board st) \/
        count_of 1 (board st) = S (count_of 2 (board st))))).

(** ** Sample states *)

Definition mk_state (b : list Z) (p turn status : Z) : Contract :=
  {| board := b; player := p; current_turn := turn; game_status := status;
     rng_seed := 1; logs := [] |}.

(** Player 7 holds 0 and 1; the contract is to reply. *)
Definition st_threat : Contract := mk_state [1; 1; 0; 0; 0; 0; 0; 0; 0] 7 2 1.

(** Player 7 to move; playing 0 fills the board and completes the top row. *)
Definition st_last_move : Contract := mk_state [0; 1; 1; 2; 2; 1; 2; 1; 2] 7 1 1.

(** The contract's mark at 2 fills the board and completes the top row. *)
Definition st_contract_last : Contract := mk_state [2; 2; 0; 1; 1; 2; 1; 2; 1] 7 2 1.

(** A game of player 7: 0, 1, 3; the contract answers 4, 2, 6 and wins. *)
Definition finished_game : Contract :=
  run [CallStartGame 7; CallMakeMove 7 0; CallMakeMove 7 1; CallMakeMove 7 3]
      init_state.

(** The state right after player 7 started a game. *)
Definition started_game : Contract := run [CallStartGame 7] init_state.

(** The state right after [start_game] by [s] on a fresh contract. *)
Definition started_by (s : Z) : Contract :=
  {| board := repeat 0 BOARD_SIZE; player := s; current_turn := 1;
     game_status := 1; rng_seed := 1; logs := [GameStarted s] |}.

(** ** Reading back the definitions *)

Lemma length_set_nth i v b : List.length (set_nth i v b) = List.length b.
Proof.
  revert i; induction b as [|x t IH]; intros [|i]; simpl; auto.
Qed.

Lemma get_set_nth_eq i v b : (i < List.length b)%nat -> get (set_nth i v b) i = v.
Proof.
  unfold get; revert i; induction b as [|x t IH]; intros [|i] Hi; simpl in *;
    try lia; auto.
  apply IH; lia.
Qed.

Lemma get_set_nth_neq i j v b : i <> j -> get (set_nth i v b) j = get b j.
Proof.
  unfold get; revert i j; induction b as [|x t IH]; intros [|i] [|j] Hij;
    simpl; auto; try congruence; apply IH; lia.
Qed.

Lemma line_true x y z :
  negb (x =? 0) && (x =? y) && (x =? z) = true <-> x <> 0 /\ x = y /\ x = z.
Proof.
  rewrite !andb_true_iff, negb_true_iff, !Z.eqb_eq, Z.eqb_neq; tauto.
Qed.

Lemma would_win_spec b : would_win b = true <-> has_winning_line b.
Proof.
  unfold would_win, has_winning_line; cbn [step_by step_by_aux seq BOARD_SIZE
    existsb Nat.pred Nat.add].
  rewrite !orb_false_r, !orb_true_iff, !line_true.
  split.
  - intros H; repeat destruct H as [H|H];
      match goal with
      | H : get b ?x <> 0 /\ get b ?x = get b ?y /\ get b ?x = get b ?z |- _ =>
          exists x, y, z; split; [simpl; tauto | exact H]
      end.
  - intros (x & y & z & Hin & H); simpl in Hin;
      repeat destruct Hin as [Hin|Hin]; try contradiction;
      injection Hin as <- <- <-; tauto.
Qed.

Lemma check_winner_would_win st : check_winner st = would_win (board st).
Proof. reflexivity. Qed.

Lemma find_first_seq_some {A} (f : nat -> option A) s n a :
  find_first f (seq s n) = Some a ->
  exists c, (s <= c < s + n)%nat /\ f c = Some a /\
    forall j, (s <= j < c)%nat -> f j = None.
Proof.
  revert s; induction n as [|n IH]; intros s H; simpl in H; [discriminate|].
  destruct (f s) as [x|] eqn:E.
  - injection H as <-; exists s; split; [lia|split; [exact E|intros; lia]].
  - apply IH in H as (c & Hc & Hfc & Hlt).
    exists c; split; [lia|split; [exact Hfc|]].
    intros j Hj; destruct (Nat.eq_dec j s) as [->|Hne]; [exact E|apply Hlt; lia].
Qed.

Lemma find_first_seq_none {A} (f : nat -> option A) s n :
  find_first f (seq s n) = None -> forall j, (s <= j < s + n)%nat -> f j = None.
Proof.
  revert s; induction n as [|n IH]; intros s H j Hj; simpl in H; [lia|].
  destruct (f s) eqn:E; [discriminate|].
  destruct (Nat.eq_dec j s) as [->|Hne]; [exact E|apply (IH (S s)); auto; lia].
Qed.

Lemma board_copy_eq b :
  List.length b = 9%nat -> map (fun i => get b i) (seq 0 BOARD_SIZE) = b.
Proof.
  intros H; do 9 (destruct b as [|? b]; [discriminate|]);
    destruct b; [reflexivity|discriminate].
Qed.

Section WinningMove.
Variable st : Contract.
Hypothesis Hlen : List.length (board st) = 9%nat.
Variable m : Z.

Let body := fun pos =>
  if get (board st) pos =? 0 then
    let board_copy := map (fun i => get (board st) i) (seq 0 BOARD_SIZE) in
    if would_win (set_nth pos m board_copy) then Some pos else None
  else None.

Lemma body_none j : body j = None <-> ~ wins_by_placing (board st) m j.
Proof.
  unfold body, wins_by_placing; cbv zeta; rewrite board_copy_eq by exact Hlen.
  rewrite <- would_win_spec.
  destruct (Z.eqb_spec (get (board st) j) 0) as [E|E];
    [destruct (would_win _)|]; split; intros H; try discriminate;
    try reflexivity; try (exfalso; apply H; auto; fail);
    intros [H1 H2]; congruence.
Qed.

Lemma body_some j a : body j = Some a -> a = j /\ wins_by_placing (board st) m j.
Proof.
  unfold body, wins_by_placing; cbv zeta; rewrite board_copy_eq by exact Hlen.
  rewrite <- would_win_spec.
  destruct (Z.eqb_spec (get (board st) j) 0);
    [destruct (would_win _) eqn:W|]; intros H; try discriminate.
  injection H as <-; auto.
Qed.

Lemma find_winning_move_some c :
  find_winning_move st m = Some c -> least_cell (wins_by_placing (board st) m) c.
Proof.
  intros H; apply find_first_seq_some in H as (c' & Hc & Hf & Hlt).
  apply body_some in Hf as [-> Hw].
  split; [unfold BOARD_SIZE in Hc; lia|split; [exact Hw|]].
  intros j Hj; apply body_none, Hlt; lia.
Qed.

Lemma find_winning_move_none :
  find_winning_move st m = None -> no_cell (wins_by_placing (board st) m).
Proof.
  intros H i Hi; apply body_none.
  exact (find_first_seq_none _ 0 BOARD_SIZE H i ltac:(unfold BOARD_SIZE; lia)).
Qed.
End WinningMove.

Lemma find_first_list_some b l c :
  find_first (fun c => if get b c =? 0 then Some c else None) l = Some c ->
  exists k, nth_error l k = Some c /\ get b c = 0 /\
    forall k' c', (k' < k)%nat -> nth_error l k' = Some c' -> get b c' <> 0.
Proof.
  induction l as [|x t IH]; simpl; intros H; [discriminate|].
  destruct (Z.eqb_spec (get b x) 0) as [E|E].
  - injection H as <-; exists O; repeat split; auto; intros; lia.
  - destruct (IH H) as (k & Hk & Hz & Hlt); exists (S k); repeat split; auto.
    intros [|k'] c' Hk' Hn; simpl in Hn.
    + injection Hn as <-; exact E.
    + apply (Hlt k'); auto; lia.
Qed.

Lemma find_first_list_none b l :
  find_first (fun c => if get b c =? 0 then Some c else None) l = None ->
  forall c, In c l -> get b c <> 0.
Proof.
  induction l as [|x t IH]; simpl; intros H c Hin; [contradiction|].
  destruct (Z.eqb_spec (get b x) 0) as [E|E]; [discriminate|].
  destruct Hin as [<-|Hin]; auto.
Qed.

Lemma least_cell_unique (P : nat -> Prop) c c' :
  least_cell P c -> least_cell P c' -> c = c'.
Proof.
  intros (Hc & Hp & Hlt) (Hc' & Hp' & Hlt').
  destruct (Nat.lt_trichotomy c c') as [L|[E|L]]; auto.
  - exfalso; exact (Hlt' c L Hp).
  - exfalso; exact (Hlt c' L Hp').
Qed.

Lemma first_empty_corner_unique b c c' :
  first_empty_corner b c -> first_empty_corner b c' -> c = c'.
Proof.
  intros (k & Hk & Hz & Hlt) (k' & Hk' & Hz' & Hlt').
  destruct (Nat.lt_trichotomy k k') as [L|[->|L]].
  - exfalso; exact (Hlt' k c L Hk Hz).
  - congruence.
  - exfalso; exact (Hlt k' c' L Hk' Hz').
Qed.

Ltac priority_clash :=
  match goal with
  | L : least_cell ?P ?c, N : no_cell ?P |- _ =>
      let Hc := fresh in let Hp := fresh in
      destruct L as (Hc & Hp & _); exfalso; exact (N _ Hc Hp)
  | E : get ?b 4 = 0, NE : get ?b 4 <> 0 |- _ => contradiction
  | F : first_empty_corner ?b ?c, A : forall c', In c' corners -> get ?b c' <> 0 |- _ =>
      let k := fresh in let Hk := fresh in let Hz := fresh in
      destruct F as (k & Hk & Hz & _); exfalso; exact (A _ (nth_error_In _ _ Hk) Hz)
  end.

Lemma priority_choice_functional b c c' :
  priority_choice b c -> priority_choice b c' -> c' = c.
Proof.
  intros H H'.
  destruct H as [A|[A|[A|[A|A]]]]; destruct H' as [B|[B|[B|[B|B]]]];
    repeat match goal with X : _ /\ _ |- _ => destruct X end; subst;
    try priority_clash; auto;
    try (symmetry; eapply least_cell_unique; eassumption);
    symmetry; eapply first_empty_corner_unique; eassumption.
Qed.

Lemma make_contract_move_choice st :
  List.length (board st) = 9%nat ->
  (exists i, (i < 9)%nat /\ get (board st) i = 0) ->
  exists c, make_contract_move st = make_contract_move_at st c /\
            priority_choice (board st) c.
Proof.
  intros Hlen Hex; unfold make_contract_move.
  destruct (find_winning_move st 2) as [c|] eqn:E2.
  { exists c; split; [reflexivity|left; now apply find_winning_move_some]. }
  pose proof (find_winning_move_none st Hlen 2 E2) as N2.
  destruct (find_winning_move st 1) as [c|] eqn:E1.
  { exists c; split; [reflexivity|right; left; split; auto].
    now apply find_winning_move_some. }
  pose proof (find_winning_move_none st Hlen 1 E1) as N1.
  destruct (Z.eqb_spec (get (board st) 4) 0) as [E4|E4].
  { exists 4%nat; split; [reflexivity|right; right; left; auto]. }
  destruct (find_first _ corners) as [c|] eqn:EC.
  { exists c; split; [reflexivity|right; right; right; left].
    refine (conj N2 (conj N1 (conj E4 _))); now apply find_first_list_some. }
  pose proof (find_first_list_none _ _ EC) as NC.
  destruct (find_first _ (seq 0 BOARD_SIZE)) as [c|] eqn:EA.
  - exists c; split; [reflexivity|right; right; right; right].
    refine (conj N2 (conj N1 (conj E4 (conj NC _)))).
    apply find_first_seq_some in EA as (c' & Hc & Hf & Hlt).
    destruct (Z.eqb_spec (get (board st) c') 0) as [Z0|Z0]; [|discriminate].
    injection Hf as <-; repeat split; [unfold BOARD_SIZE in Hc; lia|exact Z0|].
    intros j Hj Hz; specialize (Hlt j ltac:(lia)); simpl in Hlt.
    rewrite Hz in Hlt; discriminate.
  - exfalso; destruct Hex as (i & Hi & Hz).
    pose proof (find_first_seq_none _ 0 BOARD_SIZE EA i ltac:(unfold BOARD_SIZE; lia))
      as Hn; simpl in Hn; rewrite Hz in Hn; discriminate.
Qed.

Lemma get_board_full st :
  is_board_full st = false -> exists i, (i < 9)%nat /\ get (board st) i = 0.
Proof.
  unfold is_board_full.
  destruct (find_first _ (seq 0 BOARD_SIZE)) as [r|] eqn:E; [|discriminate].
  intros ->; apply find_first_seq_some in E as (c & Hc & Hf & _).
  exists c; split; [unfold BOARD_SIZE in Hc; lia|].
  destruct (Z.eqb_spec (get (board st) c) 0); [assumption|discriminate].
Qed.

Lemma is_board_full_spec st :
  is_board_full st = true <-> board_full (board st).
Proof.
  unfold is_board_full, board_full; split.
  - destruct (find_first _ (seq 0 BOARD_SIZE)) as [r|] eqn:E.
    + intros ->; apply find_first_seq_some in E as (c & _ & Hf & _).
      destruct (get (board st) c =? 0); discriminate.
    + intros _ i Hi Hz.
      pose proof (find_first_seq_none _ 0 BOARD_SIZE E i ltac:(unfold BOARD_SIZE; lia))
        as Hn; simpl in Hn; rewrite Hz in Hn; discriminate.
  - intros H; destruct (find_first _ (seq 0 BOARD_SIZE)) as [r|] eqn:E; auto.
    apply find_first_seq_some in E as (c & Hc & Hf & _).
    destruct (Z.eqb_spec (get (board st) c) 0) as [Z0|Z0]; [|discriminate].
    exfalso; apply (H c); [unfold BOARD_SIZE in Hc; lia|exact Z0].
Qed.

Lemma find_winning_move_empty st m c :
  find_winning_move st m = Some c -> get (board st) c = 0.
Proof.
  unfold find_winning_move; intros H.
  apply find_first_seq_some in H as (c' & _ & Hf & _).
  destruct (Z.eqb_spec (get (board st) c') 0) as [Z0|Z0]; [|discriminate].
  destruct (would_win _); [|discriminate]; congruence.
Qed.

(** The reply changes the board at one empty cell, or not at all. *)
Lemma make_contract_move_cases st :
  make_contract_move st = st \/
  exists c, get (board st) c = 0 /\ make_contract_move st = make_contract_move_at st c.
Proof.
  unfold make_contract_move.
  destruct (find_winning_move st 2) as [c|] eqn:E2.
  { right; exists c; split; [eapply find_winning_move_empty; eauto|reflexivity]. }
  destruct (find_winning_move st 1) as [c|] eqn:E1.
  { right; exists c; split; [eapply find_winning_move_empty; eauto|reflexivity]. }
  destruct (Z.eqb_spec (get (board st) 4) 0) as [E4|E4].
  { right; exists 4%nat; auto. }
  destruct (find_first _ corners) as [c|] eqn:EC.
  { right; exists c; split; [|reflexivity].
    apply find_first_list_some in EC as (_ & _ & Hz & _); exact Hz. }
  destruct (find_first _ (seq 0 BOARD_SIZE)) as [c|] eqn:EA; [|left; reflexivity].
  right; exists c; split; [|reflexivity].
  apply find_first_list_some in EA as (_ & _ & Hz & _); exact Hz.
Qed.

Lemma make_contract_move_at_board st c :
  board (make_contract_move_at st c) = set_nth c 2 (board st).
Proof.
  unfold make_contract_move_at; cbv zeta.
  destruct (check_winner _); [reflexivity|]; destruct (is_board_full _); reflexivity.
Qed.

Lemma make_contract_move_at_status st c :
  (game_status (make_contract_move_at st c) = 2) \/
  (game_status (make_contract_move_at st c) = game_status st /\
   current_turn (make_contract_move_at st c) = 1).
Proof.
  unfold make_contract_move_at; cbv zeta.
  destruct (check_winner _); [left; reflexivity|];
    destruct (is_board_full _); [left|right]; split; reflexivity.
Qed.

Lemma to_usize_in position :
  0 <= position <= 8 -> to_usize_or (Z.of_nat BOARD_SIZE) position = position.
Proof.
  intros H; unfold to_usize_or, usize_bound.
  replace ((0 <=? position) && (position <? 2 ^ 32)) with true; [reflexivity|].
  symmetry; apply andb_true_iff; split; [apply Z.leb_le|apply Z.ltb_lt]; lia.
Qed.

Lemma to_usize_out position :
  ~ (0 <= position <= 8) -> Z.of_nat BOARD_SIZE <= to_usize_or (Z.of_nat BOARD_SIZE) position.
Proof.
  intros H; unfold to_usize_or, usize_bound, BOARD_SIZE.
  destruct ((0 <=? position) && (position <? 2 ^ 32)) eqn:R; [|simpl; lia].
  apply andb_true_iff in R as [R1 R2]; apply Z.leb_le in R1; simpl; lia.
Qed.

(** Shape of a successful [make_move]. *)
Lemma make_move_ok_inv sender position st st' :
  make_move sender position st = Ok st' ->
  0 <= position < 9 /\ game_status st = 1 /\ sender = player st /\
  current_turn st = 1 /\ get (board st) (Z.to_nat position) = 0 /\
  let st1 := log (set_cell st (Z.to_nat position) 1) (PlayerMove position) in
  (check_winner st1 = true /\ st' = log (set_status st1 2) (GameWon sender)) \/
  (check_winner st1 = false /\ is_board_full st1 = true /\
   st' = log (set_status st1 2) GameDrawn) \/
  (check_winner st1 = false /\ is_board_full st1 = false /\
   st' = make_contract_move (set_turn st1 2)).
Proof.
  unfold make_move, to_usize_or, usize_bound.
  destruct ((0 <=? position) && (position <? 2 ^ 32)) eqn:R.
  2:{ intros H; simpl in H; discriminate. }
  apply andb_true_iff in R as [R1 R2]; apply Z.leb_le in R1; apply Z.ltb_lt in R2.
  destruct (Z.leb_spec (Z.of_nat BOARD_SIZE) position) as [P|P];
    [discriminate|unfold BOARD_SIZE in P].
  destruct (Z.eqb_spec (game_status st) 1); [|discriminate]; simpl.
  destruct (Z.eqb_spec sender (player st)); [|discriminate]; simpl.
  destruct (Z.eqb_spec (current_turn st) 1); [|discriminate]; simpl.
  destruct (Z.eqb_spec (get (board st) (Z.to_nat position)) 0); [|discriminate]; simpl.
  intros H; repeat split; try lia; auto.
  destruct (check_winner _) eqn:W.
  - left; split; [reflexivity|congruence].
  - destruct (is_board_full _) eqn:F.
    + right; left; repeat split; congruence.
    + right; right; repeat split; congruence.
Qed.

Lemma priority_choice_cell b c :
  priority_choice b c -> (c < 9)%nat /\ get b c = 0.
Proof.
  intros [H|[H|[H|[H|H]]]].
  - destruct H as (Hc & [Hz _] & _); auto.
  - destruct H as (_ & Hc & [Hz _] & _); auto.
  - destruct H as (_ & _ & Hz & ->); split; [lia|exact Hz].
  - destruct H as (_ & _ & _ & k & Hk & Hz & _); split; [|exact Hz].
    apply nth_error_In in Hk; simpl in Hk; lia.
  - destruct H as (_ & _ & _ & _ & Hc & Hz & _); auto.
Qed.

(** On a board that is not full the reply commits exactly one move. *)
Lemma selector_commits st :
  List.length (board st) = 9%nat -> is_board_full st = false ->
  exists c, (c < 9)%nat /\ get (board st) c = 0 /\
    make_contract_move st = make_contract_move_at st c /\
    board (make_contract_move st) = set_nth c 2 (board st).
Proof.
  intros Hlen Hf.
  destruct (make_contract_move_choice st Hlen (get_board_full st Hf)) as (c & Hm & Hp).
  destruct (priority_choice_cell _ _ Hp) as [Hc Hz].
  exists c; repeat split; auto.
  rewrite Hm; apply make_contract_move_at_board.
Qed.

Lemma get_set_nth_marked b p v i :
  get b i <> 0 -> get b p = 0 -> get (set_nth p v b) i = get b i.
Proof.
  intros Hi Hp; apply get_set_nth_neq; intros ->; contradiction.
Qed.

Lemma make_move_preserves_marks sender position st st' :
  make_move sender position st = Ok st' ->
  forall i, get (board st) i <> 0 -> get (board st') i = get (board st) i.
Proof.
  intros H i Hi.
  apply make_move_ok_inv in H as (_ & _ & _ & _ & Hz & Hb); cbv zeta in Hb.
  set (b1 := set_nth (Z.to_nat position) 1 (board st)).
  assert (E1 : get b1 i = get (board st) i) by (apply get_set_nth_marked; auto).
  destruct Hb as [(_ & ->)|[(_ & _ & ->)|(_ & _ & ->)]]; [exact E1|exact E1|].
  destruct (make_contract_move_cases
              (set_turn (log (set_cell st (Z.to_nat position) 1)
                             (PlayerMove position)) 2)) as [->|(c & Hc & ->)];
    [exact E1|].
  rewrite make_contract_move_at_board; simpl in *.
  rewrite get_set_nth_marked; [exact E1| |exact Hc]; fold b1; congruence.
Qed.

Lemma filter_length_mono (f g : nat -> bool) l :
  (forall i, In i l -> f i = true -> g i = true) ->
  (List.length (filter f l) <= List.length (filter g l))%nat.
Proof.
  induction l as [|x t IH]; simpl; intros H; [lia|].
  destruct (f x) eqn:F.
  - rewrite (H x (or_introl eq_refl) F); simpl.
    apply le_n_S, IH; intros; apply H; auto.
  - destruct (g x); simpl; [apply le_S|]; apply IH; intros; apply H; auto.
Qed.

Lemma count_marked_le_9 b : (count_marked b <= 9)%nat.
Proof.
  unfold count_marked.
  change 9%nat with (List.length (seq 0 BOARD_SIZE)).
  apply filter_length_le.
Qed.

(** ** The claims *)

(** C4: the win detector, both [would_win] on a board copy and
    [check_winner] on the stored board, returns true iff one of the 8
    lines (0,1,2) (3,4,5) (6,7,8) (0,3,6) (1,4,7) (2,5,8) (0,4,8)
    (2,4,6) holds three equal non-empty cells. *)
Theorem C4_win_detector :
  forall (b : list Z) (st : Contract),
    (would_win b = true <-> has_winning_line b) /\
    (check_winner st = true <-> has_winning_line (board st)).
Proof.
  intros b st; split; [apply would_win_spec|].
  rewrite check_winner_would_win; apply would_win_spec.
Qed.

(** C3: on a board with an empty cell the contract's reply plays the
    cell chosen by the fixed priority (win at the lowest such cell, else
    block at the lowest such cell, else centre, else first empty corner
    of 0, 2, 6, 8, else lowest empty cell), and that choice is unique
    for the board. *)
Theorem C3_opponent_priority :
  forall st : Contract,
    List.length (board st) = 9%nat ->
    (exists i, (i < 9)%nat /\ get (board st) i = 0) ->
    exists c, make_contract_move st = make_contract_move_at st c /\
      priority_choice (board st) c /\
      (forall c', priority_choice (board st) c' -> c' = c).
Proof.
  intros st Hlen Hex.
  destruct (make_contract_move_choice st Hlen Hex) as (c & Hm & Hp).
  exists c; split; [exact Hm|split; [exact Hp|]].
  intros c' Hp'; exact (priority_choice_functional _ _ _ Hp Hp').
Qed.

Lemma C3_witness :
  exists c, make_contract_move st_threat = make_contract_move_at st_threat c /\
    priority_choice (board st_threat) c /\
    (forall c', priority_choice (board st_threat) c' -> c' = c).
Proof.
  apply C3_opponent_priority; [reflexivity|].
  exists 2%nat; split; [lia|reflexivity].
Defined.

(** The spec's scenario: with player marks at 0 and 1 the reply blocks at 2. *)
Example st_threat_blocks :
  make_contract_move st_threat = make_contract_move_at st_threat 2.
Proof. vm_compute; reflexivity. Qed.

(** C2: [make_move] fails exactly when one of its five checks fails,
    with the error of the first failing one in the order position,
    status, caller, turn, cell; a failing call leaves the stored state
    (board, player, turn, status) as it was. *)
Theorem C2_validation_order :
  forall (sender position : Z) (st : Contract),
    (~ (0 <= position <= 8) -> make_move sender position st = Err InvalidPosition) /\
    (0 <= position <= 8 -> game_status st <> 1 ->
       make_move sender position st = Err GameNotActive) /\
    (0 <= position <= 8 -> game_status st = 1 -> sender <> player st ->
       make_move sender position st = Err NotAuthorized) /\
    (0 <= position <= 8 -> game_status st = 1 -> sender = player st ->
       current_turn st <> 1 -> make_move sender position st = Err OutOfTurn) /\
    (0 <= position <= 8 -> game_status st = 1 -> sender = player st ->
       current_turn st = 1 -> get (board st) (Z.to_nat position) <> 0 ->
       make_move sender position st = Err CellOccupied) /\
    (0 <= position <= 8 -> game_status st = 1 -> sender = player st ->
       current_turn st = 1 -> get (board st) (Z.to_nat position) = 0 ->
       exists st', make_move sender position st = Ok st') /\
    (forall e, make_move sender position st = Err e ->
       exec (CallMakeMove sender position) st = st).
Proof.
  intros sender position st.
  pose proof (to_usize_in position) as Hin; pose proof (to_usize_out position) as Hout.
  assert (Hexec : forall e, make_move sender position st = Err e ->
                  exec (CallMakeMove sender position) st = st)
    by (intros e He; unfold exec; rewrite He; reflexivity).
  unfold make_move; repeat split.
  - intros H; rewrite (proj2 (Z.leb_le _ _) (Hout H)); reflexivity.
  - intros H Hs; rewrite (Hin H).
    replace (Z.of_nat BOARD_SIZE <=? position) with false
      by (symmetry; apply Z.leb_gt; simpl; lia); cbn iota.
    destruct (Z.eqb_spec (game_status st) 1); [contradiction|reflexivity].
  - intros H Hs Hp; rewrite (Hin H).
    replace (Z.of_nat BOARD_SIZE <=? position) with false
      by (symmetry; apply Z.leb_gt; simpl; lia); cbn iota.
    rewrite (proj2 (Z.eqb_eq _ _) Hs); simpl.
    destruct (Z.eqb_spec sender (player st)); [contradiction|reflexivity].
  - intros H Hs Hp Ht; rewrite (Hin H).
    replace (Z.of_nat BOARD_SIZE <=? position) with false
      by (symmetry; apply Z.leb_gt; simpl; lia); cbn iota.
    rewrite (proj2 (Z.eqb_eq _ _) Hs), (proj2 (Z.eqb_eq _ _) Hp); simpl.
    destruct (Z.eqb_spec (current_turn st) 1); [contradiction|reflexivity].
  - intros H Hs Hp Ht Hc; rewrite (Hin H).
    replace (Z.of_nat BOARD_SIZE <=? position) with false
      by (symmetry; apply Z.leb_gt; simpl; lia); cbn iota.
    rewrite (proj2 (Z.eqb_eq _ _) Hs), (proj2 (Z.eqb_eq _ _) Hp),
      (proj2 (Z.eqb_eq _ _) Ht); simpl.
    destruct (Z.eqb_spec (get (board st) (Z.to_nat position)) 0);
      [contradiction|reflexivity].
  - intros H Hs Hp Ht Hc; rewrite (Hin H).
    replace (Z.of_nat BOARD_SIZE <=? position) with false
      by (symmetry; apply Z.leb_gt; simpl; lia); cbn iota.
    rewrite (proj2 (Z.eqb_eq _ _) Hs), (proj2 (Z.eqb_eq _ _) Hp),
      (proj2 (Z.eqb_eq _ _) Ht), (proj2 (Z.eqb_eq _ _) Hc); simpl.
    destruct (check_winner _); [eexists; reflexivity|].
    destruct (is_board_full _); eexists; reflexivity.
  - exact Hexec.
Qed.

(** C9: any U256 position outside 0..8, also one too large for a usize,
    makes [make_move] fail with [InvalidPosition] in every state, and the
    stored state is left as it was. *)
Theorem C9_invalid_position :
  forall (sender position : Z) (st : Contract),
    0 <= position < 2 ^ 256 -> 9 <= position ->
    make_move sender position st = Err InvalidPosition /\
    exec (CallMakeMove sender position) st = st.
Proof.
  intros sender position st Hu H9.
  assert (E : make_move sender position st = Err InvalidPosition).
  { unfold make_move.
    rewrite (proj2 (Z.leb_le _ _) (to_usize_out position ltac:(lia))).
    reflexivity. }
  split; [exact E|unfold exec; rewrite E; reflexivity].
Qed.

Lemma C9_witness :
  (make_move 7 9 started_game = Err InvalidPosition /\
   exec (CallMakeMove 7 9) started_game = started_game) /\
  (make_move 7 100 started_game = Err InvalidPosition /\
   exec (CallMakeMove 7 100) started_game = started_game) /\
  (make_move 7 (2 ^ 255) started_game = Err InvalidPosition /\
   exec (CallMakeMove 7 (2 ^ 255)) started_game = started_game).
Proof.
  split; [|split]; apply C9_invalid_position; lia.
Defined.

Lemma byte_of_nat_eq b n : Byte.to_nat b = n -> Byte.of_nat n = Some b.
Proof. intros <-; apply Byte.of_to_nat. Qed.

(** C10: [supports_interface] never panics, does not depend on or change
    the stored state, and answers true exactly for the identifier
    0x01ffc9a7 (bytes 01 ff c9 a7); 0xffffffff is answered false. *)
Theorem C10_supports_interface :
  forall (st : Contract) (interface : FixedBytes4),
    (exists r, supports_interface st interface = Some r /\
       (r = true <-> interface = (x01, xff, xc9, xa7))) /\
    (forall st', supports_interface st' interface = supports_interface st interface) /\
    exec (CallSupportsInterface (player st) interface) st = st /\
    supports_interface st (xff, xff, xff, xff) = Some false.
Proof.
  intros st [[[b0 b1] b2] b3].
  split; [|split; [reflexivity|split; reflexivity]].
  eexists; split; [reflexivity|].
  unfold u32_from_be_bytes; rewrite Z.eqb_eq; split.
  - pose proof (Byte.to_nat_bounded b0); pose proof (Byte.to_nat_bounded b1).
    pose proof (Byte.to_nat_bounded b2); pose proof (Byte.to_nat_bounded b3).
    intros Hid.
    assert (Byte.to_nat b0 = 1%nat /\ Byte.to_nat b1 = 255%nat /\
            Byte.to_nat b2 = 201%nat /\ Byte.to_nat b3 = 167%nat)
      as (E0 & E1 & E2 & E3) by lia.
    apply byte_of_nat_eq in E0, E1, E2, E3; simpl in E0, E1, E2, E3.
    congruence.
  - intros H; injection H as -> -> -> ->; reflexivity.
Qed.

(** C1 (refuted): the guard of [start_game] compares the status with 0
    (not started), so a finished game (status 2) cannot be restarted:
    [start_game] fails with [GameAlreadyActive] in every state whose
    status is not 0, e.g. after the game of [finished_game]. *)
Theorem C1_start_after_finish_rejected :
  (forall (sender : Z) (st : Contract), game_status st <> 0 ->
     start_game sender st = Err GameAlreadyActive) /\
  game_status finished_game = 2 /\
  start_game 7 finished_game = Err GameAlreadyActive.
Proof.
  split; [|vm_compute; split; reflexivity].
  intros sender st H; unfold start_game.
  destruct (Z.eqb_spec (game_status st) 0); [contradiction|reflexivity].
Qed.

(** C5: a move that leaves the board both full and holding a winning
    line is reported as a win (status 2, [GameWon]) and never as a draw,
    for the player's move in [make_move] and for the contract's reply. *)
Theorem C5_win_before_draw :
  (forall (sender position : Z) (st st' : Contract),
     make_move sender position st = Ok st' ->
     has_winning_line (set_nth (Z.to_nat position) 1 (board st)) ->
     board_full (set_nth (Z.to_nat position) 1 (board st)) ->
     game_status st' = 2 /\
     logs st' = logs st ++ [PlayerMove position; GameWon sender]) /\
  (forall (st : Contract) (c : nat),
     has_winning_line (set_nth c 2 (board st)) ->
     board_full (set_nth c 2 (board st)) ->
     game_status (make_contract_move_at st c) = 2 /\
     logs (make_contract_move_at st c) =
       logs st ++ [ContractMove (Z.of_nat c); GameWon ADDRESS_ZERO]).
Proof.
  split.
  - intros sender position st st' H Hw _.
    apply make_move_ok_inv in H as (_ & _ & _ & _ & _ & Hb); cbv zeta in Hb.
    rewrite check_winner_would_win in Hb; simpl in Hb.
    apply would_win_spec in Hw; rewrite Hw in Hb.
    destruct Hb as [(_ & ->)|[(W & _)|(W & _)]]; try discriminate.
    simpl; rewrite <- app_assoc; split; reflexivity.
  - intros st c Hw _; unfold make_contract_move_at; cbv zeta.
    rewrite check_winner_would_win; simpl.
    apply would_win_spec in Hw; rewrite Hw; simpl.
    rewrite <- app_assoc; split; reflexivity.
Qed.

Lemma board_full_last_move : board_full [1; 1; 1; 2; 2; 1; 2; 1; 2].
Proof.
  intros i Hi; do 9 (destruct i as [|i]; [vm_compute; discriminate|]); lia.
Qed.

Lemma board_full_contract_last : board_full [2; 2; 2; 1; 1; 2; 1; 2; 1].
Proof.
  intros i Hi; do 9 (destruct i as [|i]; [vm_compute; discriminate|]); lia.
Qed.

Lemma C5_witness :
  (game_status (log (set_status (log (set_cell st_last_move 0 1) (PlayerMove 0)) 2)
                    (GameWon 7)) = 2 /\
   logs (log (set_status (log (set_cell st_last_move 0 1) (PlayerMove 0)) 2)
             (GameWon 7)) = logs st_last_move ++ [PlayerMove 0; GameWon 7]) /\
  (game_status (make_contract_move_at st_contract_last 2) = 2 /\
   logs (make_contract_move_at st_contract_last 2) =
     logs st_contract_last ++ [ContractMove 2; GameWon ADDRESS_ZERO]).
Proof.
  split.
  - apply (proj1 C5_win_before_draw 7 0 st_last_move).
    + vm_compute; reflexivity.
    + apply would_win_spec; vm_compute; reflexivity.
    + exact board_full_last_move.
  - apply (proj2 C5_win_before_draw st_contract_last 2%nat).
    + apply would_win_spec; vm_compute; reflexivity.
    + exact board_full_contract_last.
Defined.

(** C6: after a successful [make_move] that leaves the game in progress
    it is the player's turn again, and the board differs from the one
    before the call in exactly two cells: the given position went from
    empty to the player's mark, one other cell from empty to the
    contract's mark. *)
Theorem C6_turn_alternation :
  forall (sender position : Z) (st st' : Contract),
    List.length (board st) = 9%nat ->
    make_move sender position st = Ok st' ->
    game_status st' = 1 ->
    current_turn st' = 1 /\
    exists c, (c < 9)%nat /\ c <> Z.to_nat position /\ (Z.to_nat position < 9)%nat /\
      get (board st) (Z.to_nat position) = 0 /\
      get (board st') (Z.to_nat position) = 1 /\
      get (board st) c = 0 /\ get (board st') c = 2 /\
      forall i, (i < 9)%nat -> i <> Z.to_nat position -> i <> c ->
        get (board st') i = get (board st) i.
Proof.
  intros sender position st st' Hlen H Hst.
  apply make_move_ok_inv in H as (Hp & _ & _ & _ & Hz & Hb); cbv zeta in Hb.
  destruct Hb as [(_ & ->)|[(_ & _ & ->)|(_ & Hf & ->)]]; try discriminate.
  set (pos := Z.to_nat position) in *.
  set (st2 := set_turn (log (set_cell st pos 1) (PlayerMove position)) 2) in *.
  assert (Hpos : (pos < 9)%nat) by (unfold pos; lia).
  assert (Hb2 : board st2 = set_nth pos 1 (board st)) by reflexivity.
  assert (Hl2 : List.length (board st2) = 9%nat)
    by (rewrite Hb2, length_set_nth; exact Hlen).
  destruct (selector_commits st2 Hl2 Hf) as (c & Hc & Hcz & Hm & Hbm).
  assert (Hp1 : get (board st2) pos = 1)
    by (rewrite Hb2; apply get_set_nth_eq; lia).
  assert (Hne : c <> pos) by (intros ->; congruence).
  rewrite Hm in Hst |- *.
  destruct (make_contract_move_at_status st2 c) as [S2|[_ T1]];
    [rewrite Hst in S2; discriminate|].
  split; [exact T1|].
  rewrite <- Hm, Hbm, Hb2 in *.
  exists c; repeat split; auto.
  - rewrite get_set_nth_neq by auto; exact Hp1.
  - rewrite get_set_nth_neq in Hcz by auto; exact Hcz.
  - apply get_set_nth_eq; rewrite length_set_nth; lia.
  - intros i Hi Hip Hic; rewrite !get_set_nth_neq by auto; reflexivity.
Qed.

Lemma C6_witness :
  current_turn (match make_move 7 0 started_game with Ok s => s | Err _ => started_game end) = 1 /\
  exists c, (c < 9)%nat /\ c <> Z.to_nat 0 /\ (Z.to_nat 0 < 9)%nat /\
    get (board started_game) (Z.to_nat 0) = 0 /\
    get (board (match make_move 7 0 started_game with Ok s => s | Err _ => started_game end))
        (Z.to_nat 0) = 1 /\
    get (board started_game) c = 0 /\
    get (board (match make_move 7 0 started_game with Ok s => s | Err _ => started_game end)) c = 2 /\
    forall i, (i < 9)%nat -> i <> Z.to_nat 0 -> i <> c ->
      get (board (match make_move 7 0 started_game with Ok s => s | Err _ => started_game end)) i
      = get (board started_game) i.
Proof.
  apply (C6_turn_alternation 7 0 started_game); vm_compute; reflexivity.
Defined.

(** C7: [make_move] runs the contract's reply only after checking that
    the board is not full, and on a board that is not full the reply
    always commits exactly one move (at an empty cell); so a successful
    [make_move] never leaves the game in progress on the contract's turn. *)
Theorem C7_selector_never_fails :
  forall st : Contract,
    List.length (board st) = 9%nat ->
    (is_board_full st = false ->
       exists c, (c < 9)%nat /\ get (board st) c = 0 /\
         make_contract_move st = make_contract_move_at st c /\
         board (make_contract_move st) = set_nth c 2 (board st)) /\
    (forall (sender position : Z) (st' : Contract),
       make_move sender position st = Ok st' ->
       game_status st' = 2 \/ (game_status st' = 1 /\ current_turn st' = 1)).
Proof.
  intros st Hlen; split; [apply selector_commits; exact Hlen|].
  intros sender position st' H.
  apply make_move_ok_inv in H as (Hp & Hs & _ & _ & _ & Hb); cbv zeta in Hb.
  destruct Hb as [(_ & ->)|[(_ & _ & ->)|(_ & Hf & ->)]]; [left; reflexivity|left; reflexivity|].
  set (st2 := set_turn (log (set_cell st (Z.to_nat position) 1) (PlayerMove position)) 2).
  assert (Hl2 : List.length (board st2) = 9%nat)
    by (simpl; rewrite length_set_nth; exact Hlen).
  destruct (selector_commits st2 Hl2 Hf) as (c & _ & _ & Hm & _).
  rewrite Hm.
  destruct (make_contract_move_at_status st2 c) as [S2|[S1 T1]]; [left; exact S2|].
  right; split; [rewrite S1; exact Hs|exact T1].
Qed.

Lemma C7_witness :
  (is_board_full st_threat = false ->
     exists c, (c < 9)%nat /\ get (board st_threat) c = 0 /\
       make_contract_move st_threat = make_contract_move_at st_threat c /\
       board (make_contract_move st_threat) = set_nth c 2 (board st_threat)) /\
  (forall (sender position : Z) (st' : Contract),
     make_move sender position st_threat = Ok st' ->
     game_status st' = 2 \/ (game_status st' = 1 /\ current_turn st' = 1)).
Proof.
  apply C7_selector_never_fails; reflexivity.
Defined.

(** C8: every call other than [start_game] keeps each non-empty cell
    as it was; so the number of non-empty cells does not decrease, and
    it never exceeds 9. *)
Theorem C8_marks_persist :
  forall (c : call) (st : Contract),
    (forall s, c <> CallStartGame s) ->
    (forall i, get (board st) i <> 0 -> get (board (exec c st)) i = get (board st) i) /\
    (count_marked (board st) <= count_marked (board (exec c st)) <= 9)%nat.
Proof.
  intros c st Hc.
  assert (P : forall i, get (board st) i <> 0 ->
                get (board (exec c st)) i = get (board st) i).
  { destruct c as [s|s p|s|s f]; simpl; auto.
    - exfalso; exact (Hc s eq_refl).
    - destruct (make_move s p st) eqn:E; auto.
      exact (make_move_preserves_marks _ _ _ _ E). }
  split; [exact P|split; [|apply count_marked_le_9]].
  unfold count_marked; apply filter_length_mono.
  intros i _ Hi; apply negb_true_iff in Hi; apply Z.eqb_neq in Hi.
  apply negb_true_iff, Z.eqb_neq; rewrite (P i Hi); exact Hi.
Qed.

Lemma C8_witness :
  (forall i, get (board started_game) i <> 0 ->
     get (board (exec (CallMakeMove 7 0) started_game)) i = get (board started_game) i) /\
  (count_marked (board started_game) <=
     count_marked (board (exec (CallMakeMove 7 0) started_game)) <= 9)%nat.
Proof.
  apply C8_marks_persist; intros s; discriminate.
Defined.

(** ** Further properties of the contract *)

Lemma filter_seq_bump (f g : nat -> bool) s n p :
  (s <= p < s + n)%nat -> f p = false -> g p = true ->
  (forall j, (s <= j < s + n)%nat -> j <> p -> f j = g j) ->
  List.length (filter g (seq s n)) = S (List.length (filter f (seq s n))).
Proof.
  revert s; induction n as [|n IH]; intros s Hp Hf Hg Hfg; [lia|].
  simpl; destruct (Nat.eq_dec p s) as [->|Hne].
  - rewrite Hf, Hg; simpl; f_equal.
    rewrite (filter_ext_in f g); [reflexivity|].
    intros j Hj; apply in_seq in Hj; apply Hfg; lia.
  - rewrite (Hfg s) by lia.
    destruct (g s); simpl; [f_equal|]; apply IH; auto; try lia;
      intros j Hj Hjp; apply Hfg; auto; lia.
Qed.

Lemma get_set_nth_cases p v b j :
  (p < List.length b)%nat ->
  get (set_nth p v b) j = if Nat.eqb p j then v else get b j.
Proof.
  intros Hp; destruct (Nat.eqb_spec p j) as [<-|Hne].
  - apply get_set_nth_eq; exact Hp.
  - apply get_set_nth_neq; exact Hne.
Qed.

Lemma count_of_set_same b p v :
  List.length b = 9%nat -> (p < 9)%nat -> get b p = 0 -> v <> 0 ->
  count_of v (set_nth p v b) = S (count_of v b).
Proof.
  intros Hl Hp Hz Hv; unfold count_of.
  apply (filter_seq_bump _ _ 0 BOARD_SIZE p); unfold BOARD_SIZE; cbv beta; try lia.
  - rewrite get_set_nth_eq by lia; apply Z.eqb_refl.
  - intros j _ Hj; rewrite get_set_nth_neq by auto; reflexivity.
Qed.

Lemma count_of_set_other b p v w :
  w <> v -> w <> get b p ->
  count_of w (set_nth p v b) = count_of w b.
Proof.
  intros Hv Hp; unfold count_of; f_equal; apply filter_ext_in.
  intros j _; destruct (Nat.eq_dec p j) as [<-|Hne].
  - destruct (Nat.lt_ge_cases p (List.length b)) as [L|L].
    + rewrite get_set_nth_eq by exact L.
      destruct (Z.eqb_spec v w), (Z.eqb_spec (get b p) w); congruence.
    + unfold get; rewrite !nth_overflow; [reflexivity|lia|rewrite length_set_nth; lia].
  - rewrite get_set_nth_neq by exact Hne; reflexivity.
Qed.

Lemma cells_ok_set b p v :
  cells_ok b -> (p < 9)%nat -> v = 1 \/ v = 2 -> cells_ok (set_nth p v b).
Proof.
  intros [Hl Hc] Hp Hv; split; [rewrite length_set_nth; exact Hl|].
  intros i Hi; rewrite get_set_nth_cases by lia.
  destruct (Nat.eqb p i); [tauto|auto].
Qed.

Lemma make_contract_move_at_cases st c :
  let st1 := log (set_cell st c 2) (ContractMove (Z.of_nat c)) in
  (check_winner st1 = true /\
   make_contract_move_at st c = log (set_status st1 2) (GameWon ADDRESS_ZERO)) \/
  (check_winner st1 = false /\ is_board_full st1 = true /\
   make_contract_move_at st c = log (set_status st1 2) GameDrawn) \/
  (check_winner st1 = false /\ is_board_full st1 = false /\
   make_contract_move_at st c = set_turn st1 1).
Proof.
  cbv zeta; unfold make_contract_move_at; cbv zeta.
  destruct (check_winner _); [left; auto|].
  destruct (is_board_full _); [right; left|right; right]; auto.
Qed.

(** The reply keeps the bound player and the seed, and either keeps the
    status or ends the game. *)
Lemma make_contract_move_keeps st :
  player (make_contract_move st) = player st /\
  rng_seed (make_contract_move st) = rng_seed st /\
  (game_status (make_contract_move st) = game_status st \/
   game_status (make_contract_move st) = 2).
Proof.
  destruct (make_contract_move_cases st) as [->|(c & _ & ->)]; [auto|].
  destruct (make_contract_move_at_cases st c) as [(_ & ->)|[(_ & _ & ->)|(_ & _ & ->)]];
    simpl; auto.
Qed.

Lemma make_move_keeps sender position st st' :
  make_move sender position st = Ok st' ->
  game_status st = 1 /\ player st' = player st /\ rng_seed st' = rng_seed st /\
  (game_status st' = 1 \/ game_status st' = 2).
Proof.
  intros H; apply make_move_ok_inv in H as (_ & Hs & _ & _ & _ & Hb); cbv zeta in Hb.
  split; [exact Hs|].
  destruct Hb as [(_ & ->)|[(_ & _ & ->)|(_ & _ & ->)]]; simpl; auto.
  destruct (make_contract_move_keeps
              (set_turn (log (set_cell st (Z.to_nat position) 1) (PlayerMove position)) 2))
    as (-> & -> & [ -> | -> ]); simpl; auto.
Qed.

Lemma start_game_init s : start_game s init_state = Ok (started_by s).
Proof. reflexivity. Qed.

Lemma cells_ok_empty : cells_ok (repeat 0 BOARD_SIZE).
Proof.
  split; [reflexivity|]; intros i Hi; left.
  do 9 (destruct i as [|i]; [reflexivity|]); lia.
Qed.

Lemma game_inv_init : game_inv init_state.
Proof. split; [exact cells_ok_empty|split; [reflexivity|left; reflexivity]]. Qed.

Lemma game_inv_started s : game_inv (started_by s).
Proof.
  split; [exact cells_ok_empty|split; [reflexivity|right; left]].
  repeat split.
  - intros Hw; apply would_win_spec in Hw; discriminate.
  - intros Hf; exact (Hf 0%nat ltac:(lia) eq_refl).
Qed.

Lemma game_inv_make_move sender position st st' :
  game_inv st -> make_move sender position st = Ok st' -> game_inv st'.
Proof.
  intros (Hc & Hr & Hinv) H.
  pose proof (make_move_ok_inv _ _ _ _ H) as (Hp & Hs & _ & _ & Hz & Hb); cbv zeta in Hb.
  destruct Hinv as [->|[(_ & _ & _ & _ & Hcnt)|(Hs2 & _)]];
    [discriminate|
    |rewrite Hs in Hs2; discriminate].
  set (pos := Z.to_nat position) in *.
  assert (Hpos : (pos < 9)%nat) by (unfold pos; lia).
  assert (Hl : List.length (board st) = 9%nat) by apply Hc.
  set (b1 := set_nth pos 1 (board st)).
  assert (Hc1 : cells_ok b1) by (apply cells_ok_set; auto).
  assert (E1 : count_of 1 b1 = S (count_of 1 (board st)))
    by (apply count_of_set_same; auto; lia).
  assert (E2 : count_of 2 b1 = count_of 2 (board st))
    by (apply count_of_set_other; lia).
  destruct Hb as [(_ & ->)|[(_ & _ & ->)|(_ & Hf & ->)]].
  { refine (conj Hc1 (conj Hr (or_intror (or_intror (conj eq_refl _)))));
      right; simpl; fold pos b1; lia. }
  { refine (conj Hc1 (conj Hr (or_intror (or_intror (conj eq_refl _)))));
      right; simpl; fold pos b1; lia. }
  set (st2 := set_turn (log (set_cell st pos 1) (PlayerMove position)) 2).
  assert (Hl2 : List.length (board st2) = 9%nat) by apply Hc1.
  destruct (selector_commits st2 Hl2 Hf) as (c & Hcl & Hcz & Hm & _).
  rewrite Hm.
  assert (Hb2 : board st2 = b1) by reflexivity.
  rewrite Hb2 in Hcz.
  assert (Hc2 : cells_ok (set_nth c 2 b1)) by (apply cells_ok_set; auto).
  assert (F1 : count_of 1 (set_nth c 2 b1) = count_of 1 b1)
    by (apply count_of_set_other; lia).
  assert (F2 : count_of 2 (set_nth c 2 b1) = S (count_of 2 b1))
    by (apply count_of_set_same; [apply Hc1|exact Hcl|exact Hcz|lia]).
  destruct (make_contract_move_at_cases st2 c)
    as [(_ & ->)|[(_ & _ & ->)|(W & F & ->)]].
  { refine (conj Hc2 (conj Hr (or_intror (or_intror (conj eq_refl _)))));
      left; simpl; fold pos b1; lia. }
  { refine (conj Hc2 (conj Hr (or_intror (or_intror (conj eq_refl _)))));
      left; simpl; fold pos b1; lia. }
  split; [exact Hc2|split; [exact Hr|right; left]].
  rewrite check_winner_would_win in W; simpl in W; fold pos b1 in W.
  simpl; fold pos b1.
  repeat split; [exact Hs| | |lia].
  - rewrite <- would_win_spec; congruence.
  - apply get_board_full in F as (i & Hi & Hzi).
    intros Hfull; exact (Hfull i Hi Hzi).
Qed.

Lemma game_inv_exec c st : game_inv st -> game_inv (exec c st).
Proof.
  intros Hi; destruct c as [s|s p|s|s f]; simpl; auto.
  - destruct (start_game s st) eqn:E; auto.
    destruct Hi as (Hc & Hr & [->|[(Hs & _)|(Hs & _)]]).
    + rewrite start_game_init in E; injection E as <-; apply game_inv_started.
    + unfold start_game in E; rewrite Hs in E; discriminate.
    + unfold start_game in E; rewrite Hs in E; discriminate.
  - destruct (make_move s p st) eqn:E; auto.
    exact (game_inv_make_move _ _ _ _ Hi E).
Qed.

Lemma reachable_game_inv st : reachable st -> game_inv st.
Proof.
  induction 1; [exact game_inv_init|apply game_inv_exec; assumption].
Qed.

Lemma reachable_run cs st : reachable st -> reachable (run cs st).
Proof.
  revert st; induction cs as [|c cs IH]; intros st H; simpl; auto.
  apply IH; constructor; exact H.
Qed.

Lemma make_move_not_active sender position st :
  game_status st <> 1 -> exists e, make_move sender position st = Err e.
Proof.
  intros Hs; unfold make_move.
  destruct (Z.of_nat BOARD_SIZE <=? _); [eexists; reflexivity|].
  destruct (Z.eqb_spec (game_status st) 1); [contradiction|eexists; reflexivity].
Qed.

Lemma make_move_checks_pass sender position st :
  0 <= position <= 8 -> game_status st = 1 -> sender = player st ->
  current_turn st = 1 -> get (board st) (Z.to_nat position) = 0 ->
  exists st', make_move sender position st = Ok st'.
Proof.
  intros Hp Hs Hw Ht Hc; unfold make_move; rewrite (to_usize_in _ Hp).
  replace (Z.of_nat BOARD_SIZE <=? position) with false
    by (symmetry; apply Z.leb_gt; simpl; lia).
  rewrite Hs, Hw, Ht, !Z.eqb_refl, Hc; simpl.
  destruct (check_winner _); [eexists; reflexivity|].
  destruct (is_board_full _); eexists; reflexivity.
Qed.

Lemma finished_game_reachable : reachable finished_game.
Proof. apply reachable_run; constructor. Qed.

Lemma started_game_reachable : reachable started_game.
Proof. apply reachable_run; constructor. Qed.

(** X1: in every reachable state the board has 9 cells, each 0 (empty),
    1 (player) or 2 (contract). *)
Theorem X1_reachable_cells :
  forall st, reachable st ->
    List.length (board st) = 9%nat /\
    forall i, (i < 9)%nat -> get (board st) i = 0 \/ get (board st) i = 1 \/ get (board st) i = 2.
Proof.
  intros st H; apply reachable_game_inv in H as ([Hl Hc] & _); auto.
Qed.

Lemma X1_witness :
  List.length (board finished_game) = 9%nat /\
  forall i, (i < 9)%nat -> get (board finished_game) i = 0 \/
    get (board finished_game) i = 1 \/ get (board finished_game) i = 2.
Proof. apply X1_reachable_cells; exact finished_game_reachable. Defined.

(** X2: before the first [start_game] no call changes anything: a
    reachable state whose status is 0 is the freshly constructed one. *)
Theorem X2_not_started_is_initial :
  forall st, reachable st -> game_status st = 0 -> st = init_state.
Proof.
  intros st H Hs; apply reachable_game_inv in H as (_ & _ & [E|[(S1 & _)|(S2 & _)]]);
    auto; congruence.
Qed.

Lemma X2_witness : init_state = init_state.
Proof. apply X2_not_started_is_initial; [constructor|reflexivity]. Defined.

(** X3: in every reachable state with a game in progress it is the
    player's turn, no line is complete, some cell is empty, and both
    sides have placed the same number of marks. *)
Theorem X3_in_progress_shape :
  forall st, reachable st -> game_status st = 1 ->
    current_turn st = 1 /\ ~ has_winning_line (board st) /\
    ~ board_full (board st) /\ count_of 1 (board st) = count_of 2 (board st).
Proof.
  intros st H Hs; apply reachable_game_inv in H as (_ & _ & [->|[(_ & R)|(S2 & _)]]);
    [discriminate|exact R|congruence].
Qed.

Lemma X3_witness :
  current_turn started_game = 1 /\ ~ has_winning_line (board started_game) /\
  ~ board_full (board started_game) /\
  count_of 1 (board started_game) = count_of 2 (board started_game).
Proof. apply X3_in_progress_shape; [exact started_game_reachable|reflexivity]. Defined.

(** X4: in every reachable state the player has placed as many marks as
    the contract, or exactly one more. *)
Theorem X4_mark_balance :
  forall st, reachable st ->
    count_of 1 (board st) = count_of 2 (board st) \/
    count_of 1 (board st) = S (count_of 2 (board st)).
Proof.
  intros st H; apply reachable_game_inv in H as (_ & _ & [->|[(_ & _ & _ & _ & R)|(_ & R)]]);
    auto.
Qed.

Lemma X4_witness :
  count_of 1 (board finished_game) = count_of 2 (board finished_game) \/
  count_of 1 (board finished_game) = S (count_of 2 (board finished_game)).
Proof. apply X4_mark_balance; exact finished_game_reachable. Defined.

(** X5: in every reachable in-progress game the bound player has a move
    that [make_move] accepts. *)
Theorem X5_player_can_move :
  forall st, reachable st -> game_status st = 1 ->
    exists position st', 0 <= position <= 8 /\
      make_move (player st) position st = Ok st'.
Proof.
  intros st H Hs.
  pose proof (reachable_game_inv st H) as ([Hl _] & _ & [->|[(_ & Ht & _ & Hf & _)|(S2 & _)]]);
    [discriminate| |congruence].
  assert (Hne : ~ is_board_full st = true) by (rewrite is_board_full_spec; exact Hf).
  apply not_true_is_false, get_board_full in Hne as (i & Hi & Hz).
  exists (Z.of_nat i).
  destruct (make_move_checks_pass (player st) (Z.of_nat i) st) as (st' & E);
    try lia; auto; [rewrite Nat2Z.id; exact Hz|].
  exists st'; split; [lia|exact E].
Qed.

Lemma X5_witness :
  exists position st', 0 <= position <= 8 /\
    make_move (player started_game) position started_game = Ok st'.
Proof. apply X5_player_can_move; [exact started_game_reachable|reflexivity]. Defined.

(** X6: once a game is finished (status 2) every call is rejected or
    read-only: the stored state never changes again. *)
Theorem X6_finished_is_frozen :
  forall (c : call) (st : Contract), game_status st = 2 -> exec c st = st.
Proof.
  intros c st Hs; destruct c as [s|s p|s|s f]; simpl; auto.
  - unfold start_game; rewrite Hs; reflexivity.
  - destruct (make_move_not_active s p st ltac:(congruence)) as (e & ->); reflexivity.
Qed.

Lemma X6_witness :
  exec (CallStartGame 7) finished_game = finished_game /\
  exec (CallMakeMove 7 5) finished_game = finished_game.
Proof.
  split; apply X6_finished_is_frozen; vm_compute; reflexivity.
Defined.

(** X7: no call lowers the game status, and once a game has been started
    no call changes the bound player. *)
Theorem X7_status_monotone_player_bound :
  forall (c : call) (st : Contract),
    game_status st <= game_status (exec c st) /\
    (game_status st <> 0 -> player (exec c st) = player st).
Proof.
  intros c st; destruct c as [s|s p|s|s f]; simpl; try (split; [lia|auto]).
  - unfold start_game.
    destruct (Z.eqb_spec (game_status st) 0) as [E|E]; simpl; [|split; [lia|auto]].
    split; [rewrite E; lia|contradiction].
  - destruct (make_move s p st) eqn:M; [|split; [lia|auto]].
    destruct (make_move_keeps _ _ _ _ M) as (Hs & Hp & _ & Hs').
    split; [lia|auto].
Qed.

Lemma fold_set_cell_seed (is : list nat) (st0 : Contract) :
  rng_seed (fold_left (fun s i => set_cell s i 0) is st0) = rng_seed st0.
Proof.
  revert st0; induction is as [|i is IH]; intros st0; simpl; [reflexivity|].
  rewrite IH; reflexivity.
Qed.

(** X8: the seed written by the constructor is never changed by a call. *)
Theorem X8_seed_untouched :
  forall (c : call) (st : Contract), rng_seed (exec c st) = rng_seed st.
Proof.
  intros c st; destruct c as [s|s p|s|s f]; simpl; auto.
  - unfold start_game; destruct (negb _); [reflexivity|].
    cbn [exec rng_seed log set_status set_turn set_player].
    apply fold_set_cell_seed.
  - destruct (make_move s p st) eqn:M; [|reflexivity].
    apply (make_move_keeps _ _ _ _ M).
Qed.

(** X9: [start_game] on a contract with status 0 succeeds: it empties the
    nine cells, binds the caller, gives the player the first turn, sets
    the status to 1, keeps the seed and logs [GameStarted] of the caller. *)
Theorem X9_start_game_effect :
  forall (sender : Z) (st : Contract),
    game_status st = 0 -> List.length (board st) = 9%nat ->
    start_game sender st =
      Ok {| board := repeat 0 BOARD_SIZE; player := sender; current_turn := 1;
            game_status := 1; rng_seed := rng_seed st;
            logs := logs st ++ [GameStarted sender] |}.
Proof.
  intros sender [b p t g r l] Hs Hl; simpl in Hs, Hl; subst g.
  do 9 (destruct b as [|? b]; [discriminate|]); destruct b; [|discriminate].
  reflexivity.
Qed.

Lemma X9_witness :
  start_game 7 init_state =
    Ok {| board := repeat 0 BOARD_SIZE; player := 7; current_turn := 1;
          game_status := 1; rng_seed := rng_seed init_state;
          logs := logs init_state ++ [GameStarted 7] |}.
Proof. apply X9_start_game_effect; reflexivity. Defined.

(** X10: [is_board_full] returns true exactly when none of the cells
    0..8 is empty. *)
Theorem X10_is_board_full_iff :
  forall st : Contract,
    is_board_full st = true <-> (forall i, (i < 9)%nat -> get (board st) i <> 0).
Proof. intros st; apply is_board_full_spec. Qed.

(** X11: a successful [make_move] logs [PlayerMove] and then exactly one
    of: the player's win, a draw, or the contract's move at a cell 0..8
    followed by nothing (game goes on, player's turn), the contract's
    win (sentinel address 0) or a draw; the status says which. *)
Theorem X11_make_move_events :
  forall (sender position : Z) (st st' : Contract),
    List.length (board st) = 9%nat ->
    make_move sender position st = Ok st' ->
    exists tail, logs st' = logs st ++ PlayerMove position :: tail /\
      ((tail = [GameWon sender] /\ game_status st' = 2) \/
       (tail = [GameDrawn] /\ game_status st' = 2) \/
       exists c, (c < 9)%nat /\
         ((tail = [ContractMove (Z.of_nat c)] /\ game_status st' = 1 /\
           current_turn st' = 1) \/
          (tail = [ContractMove (Z.of_nat c); GameWon ADDRESS_ZERO] /\
           game_status st' = 2) \/
          (tail = [ContractMove (Z.of_nat c); GameDrawn] /\ game_status st' = 2))).
Proof.
  intros sender position st st' Hl H.
  apply make_move_ok_inv in H as (Hp & Hs & _ & _ & _ & Hb); cbv zeta in Hb.
  destruct Hb as [(_ & ->)|[(_ & _ & ->)|(_ & Hf & ->)]].
  - eexists; split; [simpl; rewrite <- app_assoc; reflexivity|left; auto].
  - eexists; split; [simpl; rewrite <- app_assoc; reflexivity|right; left; auto].
  - set (st2 := set_turn (log (set_cell st (Z.to_nat position) 1) (PlayerMove position)) 2).
    assert (Hl2 : List.length (board st2) = 9%nat)
      by (simpl; rewrite length_set_nth; exact Hl).
    destruct (selector_commits st2 Hl2 Hf) as (c & Hc & _ & -> & _).
    destruct (make_contract_move_at_cases st2 c)
      as [(_ & ->)|[(_ & _ & ->)|(_ & _ & ->)]];
      (eexists; split; [simpl; rewrite <- !app_assoc; reflexivity|]);
      right; right; exists c; (split; [exact Hc|]); simpl; auto 8.
Qed.

Lemma X11_witness :
  exists tail,
    logs (match make_move 7 0 started_game with Ok s => s | Err _ => started_game end) =
      logs started_game ++ PlayerMove 0 :: tail /\
    ((tail = [GameWon 7] /\
      game_status (match make_move 7 0 started_game with Ok s => s | Err _ => started_game end) = 2) \/
     (tail = [GameDrawn] /\
      game_status (match make_move 7 0 started_game with Ok s => s | Err _ => started_game end) = 2) \/
     exists c, (c < 9)%nat /\
       ((tail = [ContractMove (Z.of_nat c)] /\
         game_status (match make_move 7 0 started_game with Ok s => s | Err _ => started_game end) = 1 /\
         current_turn (match make_move 7 0 started_game with Ok s => s | Err _ => started_game end) = 1) \/
        (tail = [ContractMove (Z.of_nat c); GameWon ADDRESS_ZERO] /\
         game_status (match make_move 7 0 started_game with Ok s => s | Err _ => started_game end) = 2) \/
        (tail = [ContractMove (Z.of_nat c); GameDrawn] /\
         game_status (match make_move 7 0 started_game with Ok s => s | Err _ => started_game end) = 2))).
Proof. apply X11_make_move_events; vm_compute; reflexivity. Defined.

(** X12: when some empty cell would complete a line for the contract,
    its reply takes such a cell and wins: status 2, and the log gains
    [ContractMove] and [GameWon] of the sentinel address 0. *)
Theorem X12_contract_takes_win :
  forall st : Contract,
    List.length (board st) = 9%nat ->
    (exists i, (i < 9)%nat /\ get (board st) i = 0 /\
               has_winning_line (set_nth i 2 (board st))) ->
    game_status (make_contract_move st) = 2 /\
    exists c, (c < 9)%nat /\
      logs (make_contract_move st) = logs st ++ [ContractMove (Z.of_nat c); GameWon ADDRESS_ZERO].
Proof.
  intros st Hl (i & Hi & Hz & Hw).
  destruct (find_winning_move st 2) as [c|] eqn:E.
  - assert (M : make_contract_move st = make_contract_move_at st c)
      by (unfold make_contract_move; rewrite E; reflexivity).
    apply find_winning_move_some in E as (Hc & [_ Hwc] & _); [|exact Hl].
    rewrite M; apply would_win_spec in Hwc.
    unfold make_contract_move_at; cbv zeta; rewrite check_winner_would_win; simpl.
    rewrite Hwc; simpl.
    split; [reflexivity|exists c; split; [exact Hc|rewrite <- app_assoc; reflexivity]].
  - exfalso; exact (find_winning_move_none st Hl 2 E i Hi (conj Hz Hw)).
Qed.

Lemma X12_witness :
  game_status (make_contract_move st_contract_last) = 2 /\
  exists c, (c < 9)%nat /\
    logs (make_contract_move st_contract_last) =
      logs st_contract_last ++ [ContractMove (Z.of_nat c); GameWon ADDRESS_ZERO].
Proof.
  apply X12_contract_takes_win; [reflexivity|].
  exists 2%nat; split; [lia|split; [reflexivity|]].
  apply would_win_spec; vm_compute; reflexivity.
Defined.
